(** * coda-helper: the process-manager descriptor, the README and the
      packaging manifest, as data, and what the specification says of them.

    The repository holds no executable logic: [ecosystem.config.js] is one
    object literal, the manifest is a TOML document and the README is
    Markdown.  The text of each file is kept line by line; the descriptor
    and the manifest are also given as the values they denote, and readers
    of the two notations show that the text reads as exactly these values.
    The README is read from its text by sections and code blocks. *)

From Stdlib Require Import String Ascii List ZArith Bool Arith Lia.
Import ListNotations.
Open Scope string_scope.
Set Warnings "-register-all".

(** ** Text helpers *)

Module Text.

(** [split_on c s]: the pieces of [s] between occurrences of [c]
    (always at least one piece, pieces may be empty). *)
Fixpoint split_on (c : ascii) (s : string) : list string :=
  match s with
  | EmptyString => [EmptyString]
  | String a r =>
      if Ascii.eqb a c then EmptyString :: split_on c r
      else match split_on c r with
           | [] => [String a EmptyString]
           | p :: ps => String a p :: ps
           end
  end.

(** The double quote character. *)
Definition dquote : ascii := ascii_of_nat 34.

Definition backslash : ascii := ascii_of_nat 92.

Definition nonempty (s : string) : bool :=
  match s with EmptyString => false | String _ _ => true end.

(** Blank-separated words of a line. *)
Definition words (s : string) : list string :=
  filter nonempty (split_on " "%char s).

(** Drop leading blanks. *)
Fixpoint ltrim (s : string) : string :=
  match s with
  | String " "%char r => ltrim r
  | _ => s
  end.

(** [contains sub s]: [sub] occurs somewhere in [s]. *)
Definition contains (sub s : string) : bool :=
  match String.index 0 sub s with Some _ => true | None => false end.

Definition is_digit (a : ascii) : bool :=
  let n := nat_of_ascii a in ((48 <=? n) && (n <=? 57))%nat.

Definition is_letter (a : ascii) : bool :=
  let n := nat_of_ascii a in
  (((65 <=? n) && (n <=? 90)) || ((97 <=? n) && (n <=? 122)))%nat.

(** Characters of an identifier: letters, digits and the underscore. *)
Definition is_ident_char (a : ascii) : bool :=
  is_letter a || is_digit a || Ascii.eqb a "_"%char.

(** Decimal numeral, digits only, at least one. *)
Fixpoint parse_digits (acc : nat) (s : string) : option nat :=
  match s with
  | EmptyString => Some acc
  | String a r =>
      if is_digit a then parse_digits (10 * acc + (nat_of_ascii a - 48)) r
      else None
  end.

Definition parse_nat (s : string) : option nat :=
  match s with
  | EmptyString => None
  | _ => parse_digits 0 s
  end.

(** The maximal runs of identifier characters of [s], left to right. *)
Fixpoint idents_from (cur : string) (s : string) : list string :=
  match s with
  | EmptyString => if nonempty cur then [cur] else []
  | String a r =>
      if is_ident_char a then idents_from (cur ++ String a EmptyString) r
      else if nonempty cur then cur :: idents_from EmptyString r
      else idents_from EmptyString r
  end.

Definition idents (s : string) : list string := idents_from EmptyString s.

Definition mem (x : string) (l : list string) : bool :=
  existsb (String.eqb x) l.

Fixpoint nodupb (l : list string) : bool :=
  match l with
  | [] => true
  | x :: r => negb (mem x r) && nodupb r
  end.

End Text.

(** ** The text of the supplied files *)

Module Source.

(** The lines below are written with an apostrophe wherever the file has a
    double quote (no file of the repository contains an apostrophe); [q]
    puts the double quotes back. *)
Fixpoint q (s : string) : string :=
  match s with
  | EmptyString => EmptyString
  | String a r =>
      String (if Ascii.eqb a "'"%char then Text.dquote else a) (q r)
  end.

(** The text of [ecosystem.config.js]. *)
Definition ecosystem_config_js : list string := map q [
  "module.exports = {";
  "  apps: [{";
  "    name: 'coda-helper',";
  "    script: 'run.py',";
  "    interpreter: './venv/bin/python',";
  "    instances: 1,";
  "    exec_mode: 'fork',";
  "    watch: true,";
  "    env: {";
  "      PYTHONPATH: '.'";
  "    }";
  "  }]";
  "}"
].

(** The text of the README that accompanies the descriptor. *)
Definition readme_md : list string := [
  "# FastAPI Service Template";
  EmptyString;
  "## Requirements";
  EmptyString;
  "- Python 3.10+";
  "- [Poetry](https://python-poetry.org/)";
  EmptyString;
  "## Installation";
  EmptyString;
  "### Clone the project";
  EmptyString;
  "```shell";
  "git clone git@github.com:ducminh-phan/fastapi-service-template.git";
  "cd fastapi-service-template";
  "```";
  EmptyString;
  "### Set up virtual environment";
  EmptyString;
  "```shell";
  "pyenv local 3.10.9";
  "pyenv exec python3 -m venv venv";
  "source ./venv/bin/activate";
  "```";
  EmptyString;
  "### Install dependencies";
  EmptyString;
  "```shell";
  "poetry install";
  "```";
  EmptyString;
  "### Install `pre-commit` hooks";
  EmptyString;
  "- Install `pre-commit`: https://pre-commit.com/ (should be installed globally)";
  "- Install `pre-commit` hooks:";
  EmptyString;
  "  ```shell";
  "  make install-git-hooks";
  "  ```";
  EmptyString;
  "## Running";
  EmptyString;
  "Inside the virtual environment, run";
  EmptyString;
  "```shell";
  "make run";
  "```";
  EmptyString;
  "### Run tests";
  EmptyString;
  "Inside the virtual environment, run";
  EmptyString;
  "```shell";
  "make test";
  "```"
].

(** The text of the packaging manifest. *)
Definition pyproject_toml : list string := map q [
  "[tool.poetry]";
  "name = 'fastapi-service-template'";
  "version = '0.1.0'";
  "description = ''";
  "authors = ['Duc-Minh Phan <alephvn@gmail.com>']";
  "license = 'Apache License 2.0'";
  "readme = 'README.md'";
  EmptyString;
  "[tool.poetry.dependencies]";
  "python = '^3.10'";
  "fastapi = '^0.111.0'";
  "pydantic = '^2.7.1'";
  "pydantic-settings = '^2.2.1'";
  "python-dotenv = '^1.0.1'";
  "uvicorn = '^0.29.0'";
  EmptyString;
  "[tool.poetry.group.dev.dependencies]";
  "asgiref = '^3.8.1'";
  "coverage = '^7.5.1'";
  "httpx = '^0.27.0'";
  "pytest = '^7.4.4'";
  "pytest-asyncio = '^0.21.2'";
  "pytest-cov = '^4.1.0'";
  "pytest-mock = '^3.14.0'";
  EmptyString;
  "[build-system]";
  "requires = ['poetry-core']";
  "build-backend = 'poetry.core.masonry.api'";
  EmptyString;
  "[tool.ruff]";
  "# Same as Black.";
  "line-length = 88";
  EmptyString;
  "target-version = 'py310'";
  EmptyString;
  "extend-exclude = ['migrations']";
  EmptyString;
  "[tool.ruff.lint]";
  "select = [";
  "    'F', # Pyflakes";
  "    'E', # Pycodestyle";
  "    'W', # Pycodestyle";
  "    'I', # isort";
  "    'ASYNC', # flake8-async";
  "    'S', # flake8-bandit";
  "    'COM', # flake8-commas";
  "    'C4', # flake8-comprehensions";
  "    'ISC', # flake8-implicit-str-concat";
  "    'INP', # flake8-no-pep420";
  "    'T20', # flake8-print";
  "    'RSE', # flake8-raise";
  "    'RET', # flake8-return";
  "    'SIM', # flake8-simplify";
  "    'C90', # mccabe";
  "    'PERF', # perflint";
  "    'UP', # pyupgrade";
  "    'RUF', # Ruff-specific rules";
  "]";
  EmptyString;
  "ignore = [";
  "    'S101',";
  "    'S105',";
  "    'S301',";
  "    # need to be fixed for Pydantic models:";
  "    # https://github.com/astral-sh/ruff/issues/5243";
  "    'RUF012',";
  "]";
  EmptyString;
  "[tool.ruff.lint.isort]";
  "lines-after-imports = 2";
  "split-on-trailing-comma = false";
  "forced-separate = ['tests']";
  EmptyString;
  "[tool.ruff.lint.mccabe]";
  "max-complexity = 10";
  EmptyString;
  "[tool.ruff.lint.per-file-ignores]";
  "'__init__.py' = ['F401']";
  "'tests/*' = ['S106', 'S311', 'ASYNC101']";
  EmptyString;
  "[tool.mypy]";
  "ignore_missing_imports = true";
  "strict_optional = true";
  "follow_imports = 'silent'";
  "check_untyped_defs = true";
  "plugins = ['pydantic.mypy']";
  EmptyString;
  "[[tool.mypy.overrides]]";
  "module = 'tests.*'";
  "disable_error_code = 'var-annotated'";
  EmptyString;
  "[tool.coverage.run]";
  "source = ['main']";
  "concurrency = ['greenlet', 'thread']";
  EmptyString;
  "[tool.coverage.report]";
  "exclude_lines = [";
  "    'pragma: no cover',";
  "    'def __repr__',";
  "    'raise AssertionError',";
  "    'raise NotImplementedError',";
  "    'if __name__ == .__main__.:',";
  "    'if TYPE_CHECKING:',";
  "    '@abstractmethod',";
  "    '@overload',";
  "]"
].

(** The supplied files by name.  The README is the one the manifest's
    [readme] entry points at; the manifest goes by the name its
    [[tool.poetry]] table implies. *)
Definition files : list (string * list string) := [
  ("ecosystem.config.js", ecosystem_config_js);
  ("README.md", readme_md);
  ("pyproject.toml", pyproject_toml)
].

Fixpoint number_from (n : nat) (ls : list string) : list (nat * string) :=
  match ls with
  | [] => []
  | l :: r => (n, l) :: number_from (S n) r
  end.

(** Lines are numbered from 1. *)
Definition numbered (ls : list string) : list (nat * string) :=
  number_from 1 ls.

(** [where_in_files p]: file name and line number of every line of a
    supplied file that satisfies [p]. *)
Definition where_in_files (p : string -> bool) : list (string * nat) :=
  flat_map (fun f =>
    flat_map (fun nl => if p (snd nl) then [(fst f, fst nl)] else [])
             (numbered (snd f))) files.

(** Where the identifier [w] is written. *)
Definition occurrences (w : string) : list (string * nat) :=
  where_in_files (fun l => Text.mem w (Text.idents l)).

(** The files in which a Python module [m] of the project root would
    live. *)
Definition module_files (m : string) : list string :=
  [m ++ ".py"; m ++ "/__init__.py"].

Definition supplies_module (m : string) : bool :=
  existsb (fun f => Text.mem (fst f) (module_files m)) files.

(** The names under which [make] looks for its rules. *)
Definition makefile_names : list string :=
  ["GNUmakefile"; "makefile"; "Makefile"].

Definition supplies_makefile : bool :=
  existsb (fun f => Text.mem (fst f) makefile_names) files.

End Source.

(** ** JavaScript values of an object literal *)

Module Js.

Inductive value : Type :=
| Str (s : string)
| Num (n : Z)
| Bool (b : bool)
| Arr (xs : list value)
| Obj (fields : list (string * value)).

(** Property lookup in the fields of a literal: when a key is written
    twice the later one is the one the object keeps. *)
Fixpoint lookup (k : string) (fs : list (string * value)) : option value :=
  match fs with
  | [] => None
  | (k', v) :: r =>
      match lookup k r with
      | Some w => Some w
      | None => if String.eqb k k' then Some v else None
      end
  end.

Definition get (k : string) (v : value) : option value :=
  match v with
  | Obj fs => lookup k fs
  | _ => None
  end.

(** [Object.keys]: own keys in insertion order, each once. *)
Fixpoint dedup (seen : list string) (ks : list string) : list string :=
  match ks with
  | [] => []
  | k :: r => if Text.mem k seen then dedup seen r else k :: dedup (k :: seen) r
  end.

Definition keys (v : value) : list string :=
  match v with
  | Obj fs => dedup [] (map fst fs)
  | _ => []
  end.

Definition entries (v : value) : list (string * value) :=
  match v with
  | Obj fs => flat_map (fun k => match lookup k fs with
                                 | Some w => [(k, w)]
                                 | None => []
                                 end) (dedup [] (map fst fs))
  | _ => []
  end.

Definition elements (v : value) : list value :=
  match v with
  | Arr xs => xs
  | _ => []
  end.

End Js.

(** ** Reading an object literal from text *)

Module JsReader.
Import Js.

Inductive token : Type :=
| LBrace | RBrace | LBrack | RBrack
| Colon | Comma | Assign | Dot | Semi
| Quoted (s : string)
| Word (w : string).

Definition punct (a : ascii) : option token :=
  if Ascii.eqb a "{"%char then Some LBrace
  else if Ascii.eqb a "}"%char then Some RBrace
  else if Ascii.eqb a "["%char then Some LBrack
  else if Ascii.eqb a "]"%char then Some RBrack
  else if Ascii.eqb a ":"%char then Some Colon
  else if Ascii.eqb a ","%char then Some Comma
  else if Ascii.eqb a "="%char then Some Assign
  else if Ascii.eqb a "."%char then Some Dot
  else if Ascii.eqb a ";"%char then Some Semi
  else None.

Definition is_word_char (a : ascii) : bool :=
  Text.is_ident_char a || Ascii.eqb a "$"%char.

Definition is_space (a : ascii) : bool :=
  Ascii.eqb a " "%char || Ascii.eqb a (ascii_of_nat 10).

Inductive mode : Type :=
| Idle
| InQuoted (acc : string)
| InWord (acc : string).

Definition snoc (s : string) (a : ascii) : string := s ++ String a EmptyString.

(** The tokens of a text.  Strings are double-quoted and written without
    escapes; anything else that is not a word, a blank or one of the
    punctuation marks above is refused. *)
Fixpoint lex (m : mode) (s : string) : option (list token) :=
  match s with
  | EmptyString =>
      match m with
      | Idle => Some []
      | InQuoted _ => None
      | InWord w => Some [Word w]
      end
  | String a r =>
      match m with
      | InQuoted acc =>
          if Ascii.eqb a Text.dquote
          then option_map (cons (Quoted acc)) (lex Idle r)
          else if Ascii.eqb a Text.backslash then None
          else lex (InQuoted (snoc acc a)) r
      | _ =>
          let flush := match m with
                       | InWord w => cons (Word w)
                       | _ => fun ts => ts
                       end in
          if is_word_char a
          then lex (InWord (match m with
                            | InWord w => snoc w a
                            | _ => String a EmptyString
                            end)) r
          else if is_space a then option_map flush (lex Idle r)
          else if Ascii.eqb a Text.dquote
          then option_map flush (lex (InQuoted EmptyString) r)
          else match punct a with
               | Some t => option_map (fun ts => flush (t :: ts)) (lex Idle r)
               | None => None
               end
      end
  end.

Definition literal (w : string) : option value :=
  if String.eqb w "true" then Some (Bool true)
  else if String.eqb w "false" then Some (Bool false)
  else option_map (fun n => Num (Z.of_nat n)) (Text.parse_nat w).

(** A value at the head of the tokens, and the tokens after it.  Every
    call consumes a token, so the number of tokens is fuel enough. *)
Fixpoint parse_value (fuel : nat) (ts : list token)
  : option (value * list token) :=
  match fuel with
  | 0 => None
  | S f =>
      match ts with
      | Quoted s :: r => Some (Str s, r)
      | Word w :: r => option_map (fun v => (v, r)) (literal w)
      | LBrack :: RBrack :: r => Some (Arr [], r)
      | LBrack :: r =>
          option_map (fun p => (Arr (fst p), snd p)) (parse_elements f r)
      | LBrace :: RBrace :: r => Some (Obj [], r)
      | LBrace :: r =>
          option_map (fun p => (Obj (fst p), snd p)) (parse_fields f r)
      | _ => None
      end
  end
with parse_elements (fuel : nat) (ts : list token)
  : option (list value * list token) :=
  match fuel with
  | 0 => None
  | S f =>
      match parse_value f ts with
      | Some (v, RBrack :: r) => Some ([v], r)
      | Some (v, Comma :: RBrack :: r) => Some ([v], r)
      | Some (v, Comma :: r) =>
          option_map (fun p => (v :: fst p, snd p)) (parse_elements f r)
      | _ => None
      end
  end
with parse_fields (fuel : nat) (ts : list token)
  : option (list (string * value) * list token) :=
  match fuel with
  | 0 => None
  | S f =>
      let field k r :=
        match parse_value f r with
        | Some (v, RBrace :: r') => Some ([(k, v)], r')
        | Some (v, Comma :: RBrace :: r') => Some ([(k, v)], r')
        | Some (v, Comma :: r') =>
            option_map (fun p => ((k, v) :: fst p, snd p)) (parse_fields f r')
        | _ => None
        end in
      match ts with
      | Word k :: Colon :: r => field k r
      | Quoted k :: Colon :: r => field k r
      | _ => None
      end
  end.

Definition join_lines (ls : list string) : string :=
  fold_right (fun l t => l ++ String (ascii_of_nat 10) t) EmptyString ls.

(** The value that a file of the form [module.exports = <literal>] assigns
    to [module.exports]. *)
Definition read_module_exports (ls : list string) : option value :=
  match lex Idle (join_lines ls) with
  | Some (Word m :: Dot :: Word e :: Assign :: ts) =>
      if String.eqb m "module" && String.eqb e "exports"
      then match parse_value (S (length ts)) ts with
           | Some (v, []) => Some v
           | Some (v, [Semi]) => Some v
           | _ => None
           end
      else None
  | _ => None
  end.

End JsReader.

(** ** ecosystem.config.js *)

Module Ecosystem.
Import Js.

(** The object assigned to [module.exports]. *)
Definition module_exports : value :=
  Obj [("apps", Arr [Obj [
    ("name", Str "coda-helper");
    ("script", Str "run.py");
    ("interpreter", Str "./venv/bin/python");
    ("instances", Num 1);
    ("exec_mode", Str "fork");
    ("watch", Bool true);
    ("env", Obj [
      ("PYTHONPATH", Str ".")
    ])
  ]])].

(** [module.exports.apps], the list of managed processes. *)
Definition apps : list value :=
  match get "apps" module_exports with
  | Some a => elements a
  | None => []
  end.

(** The environment variables from which the Python interpreter takes
    directories to search for modules. *)
Definition affects_module_resolution (name : string) : bool :=
  Text.mem name ["PYTHONPATH"; "PYTHONHOME"].

(** The keys that section 6 of the specification documents for an app
    entry, in the order of its list. *)
Definition spec_documented_keys : list string :=
  ["name"; "script"; "interpreter"; "instances"; "exec_mode"; "watch"; "env"].

End Ecosystem.

(** ** Version numbers and caret requirements *)

Module Semver.

(** A version is its dot-separated numeric components, most significant
    first; a component that is not written counts as 0. *)
Definition version := list nat.

Fixpoint sequence {A : Type} (l : list (option A)) : option (list A) :=
  match l with
  | [] => Some []
  | None :: _ => None
  | Some x :: r => option_map (cons x) (sequence r)
  end.

Definition parse (s : string) : option version :=
  sequence (map Text.parse_nat (Text.split_on "."%char s)).

Definition all_zero (v : version) : bool := forallb (Nat.eqb 0) v.

Fixpoint compare (a b : version) : comparison :=
  match a with
  | [] => if all_zero b then Eq else Lt
  | x :: a' =>
      match b with
      | [] => if all_zero a then Eq else Gt
      | y :: b' =>
          match Nat.compare x y with
          | Eq => compare a' b'
          | c => c
          end
      end
  end.

Definition leb (a b : version) : bool :=
  match compare a b with Gt => false | _ => true end.

Definition ltb (a b : version) : bool :=
  match compare a b with Lt => true | _ => false end.

(** The requirement forms that occur in the repository: the manifest's
    caret requirement [^v] and the README's open range [v+]. *)
Inductive requirement : Type :=
| Caret (v : version)
| AtLeast (v : version).

(** How the manifest writes a requirement: a caret and a version. *)
Definition parse_caret (s : string) : option requirement :=
  match s with
  | String "^"%char r => option_map Caret (parse r)
  | _ => None
  end.

(** The first version a caret requirement excludes: the leftmost non-zero
    component is incremented and what follows it dropped; when every
    component is 0 it is the last one that is incremented. *)
Fixpoint caret_bound (v : version) : version :=
  match v with
  | [] => []
  | [n] => [S n]
  | 0 :: r => 0 :: caret_bound r
  | S n :: _ => [S (S n)]
  end.

Definition allows (r : requirement) (v : version) : bool :=
  match r with
  | Caret b => leb b v && ltb v (caret_bound b)
  | AtLeast b => leb b v
  end.

Definition lower_bound (r : requirement) : version :=
  match r with
  | Caret b => b
  | AtLeast b => b
  end.

(** A requirement that could not be read admits nothing. *)
Definition admits (r : option requirement) (v : version) : bool :=
  match r with
  | Some r => allows r v
  | None => false
  end.

End Semver.

(** ** TOML documents *)

Module Toml.

Inductive value : Type :=
| Str (s : string)
| Int (n : Z)
| Bool (b : bool)
| Arr (xs : list value).

(** One [[header]] (or, with [array_item], one [[[header]]]) of a file with
    the key/value lines under it, in the file's order.  Comments carry no
    value and are not part of the document. *)
Record table : Type := {
  header : list string;
  array_item : bool;
  pairs : list (string * value)
}.

Definition document := list table.

Definition path_eqb (p q : list string) : bool :=
  if list_eq_dec string_dec p q then true else false.

Definition find_table (p : list string) (d : document) : option table :=
  find (fun t => path_eqb (header t) p && negb (array_item t)) d.

Fixpoint lookup (k : string) (kvs : list (string * value)) : option value :=
  match kvs with
  | [] => None
  | (k', v) :: r => if String.eqb k k' then Some v else lookup k r
  end.

(** [get p k d]: the value of key [k] in table [p]. *)
Definition get (p : list string) (k : string) (d : document) : option value :=
  match find_table p d with
  | Some t => lookup k (pairs t)
  | None => None
  end.

Definition keys_of (p : list string) (d : document) : list string :=
  match find_table p d with
  | Some t => map fst (pairs t)
  | None => []
  end.

Definition strings_of (v : value) : list string :=
  match v with
  | Arr xs => flat_map (fun x => match x with Str s => [s] | _ => [] end) xs
  | _ => []
  end.

(** The entries of a table whose values are strings. *)
Definition string_pairs (p : list string) (d : document)
  : list (string * string) :=
  match find_table p d with
  | Some t => flat_map (fun kv => match snd kv with
                                  | Str s => [(fst kv, s)]
                                  | _ => []
                                  end) (pairs t)
  | None => []
  end.

End Toml.

(** ** Reading a TOML document from text *)

Module TomlReader.
Import Toml.

Inductive token : Type :=
| LBrack | RBrack | Comma | Equals
| Quoted (s : string)
| Bare (w : string).

Definition punct (a : ascii) : option token :=
  if Ascii.eqb a "["%char then Some LBrack
  else if Ascii.eqb a "]"%char then Some RBrack
  else if Ascii.eqb a ","%char then Some Comma
  else if Ascii.eqb a "="%char then Some Equals
  else None.

(** Characters of bare keys, of dotted table names and of numbers. *)
Definition is_bare_char (a : ascii) : bool :=
  Text.is_ident_char a || Ascii.eqb a "-"%char || Ascii.eqb a "."%char.

Inductive mode : Type :=
| Idle
| InQuoted (acc : string)
| InBare (acc : string).

Definition snoc (s : string) (a : ascii) : string := s ++ String a EmptyString.

(** The tokens of one line, up to its comment.  Strings are basic strings
    without escapes. *)
Fixpoint lex (m : mode) (s : string) : option (list token) :=
  match s with
  | EmptyString =>
      match m with
      | Idle => Some []
      | InQuoted _ => None
      | InBare w => Some [Bare w]
      end
  | String a r =>
      match m with
      | InQuoted acc =>
          if Ascii.eqb a Text.dquote
          then option_map (cons (Quoted acc)) (lex Idle r)
          else if Ascii.eqb a Text.backslash then None
          else lex (InQuoted (snoc acc a)) r
      | _ =>
          let flush := match m with
                       | InBare w => cons (Bare w)
                       | _ => fun ts => ts
                       end in
          if is_bare_char a
          then lex (InBare (match m with
                            | InBare w => snoc w a
                            | _ => String a EmptyString
                            end)) r
          else if Ascii.eqb a "#"%char then Some (flush [])
          else if Ascii.eqb a " "%char then option_map flush (lex Idle r)
          else if Ascii.eqb a Text.dquote
          then option_map flush (lex (InQuoted EmptyString) r)
          else match punct a with
               | Some t => option_map (fun ts => flush (t :: ts)) (lex Idle r)
               | None => None
               end
      end
  end.

Definition scalar (t : token) : option value :=
  match t with
  | Quoted s => Some (Str s)
  | Bare w =>
      if String.eqb w "true" then Some (Bool true)
      else if String.eqb w "false" then Some (Bool false)
      else option_map (fun n => Int (Z.of_nat n)) (Text.parse_nat w)
  | _ => None
  end.

(** Comma-separated scalars; a comma may follow the last one. *)
Fixpoint elements (ts : list token) : option (list value) :=
  match ts with
  | [] => Some []
  | t :: r =>
      match scalar t with
      | Some v =>
          match r with
          | [] => Some [v]
          | Comma :: r' => option_map (cons v) (elements r')
          | _ => None
          end
      | None => None
      end
  end.

(** What one line says. *)
Inductive item : Type :=
| Blank
| Header (is_array : bool) (h : list string)
| Pair (k : string) (v : value)
| Open (k : string)
| Elements (vs : list value)
| Close.

Definition key_of (t : token) : option string :=
  match t with
  | Quoted s => Some s
  | Bare w => Some w
  | _ => None
  end.

Definition value_of (ts : list token) : option value :=
  match ts with
  | [t] => scalar t
  | LBrack :: r =>
      match last r Comma with
      | RBrack => option_map Arr (elements (removelast r))
      | _ => None
      end
  | _ => None
  end.

(** [in_array]: the line lies between the [[] that ends a [key = [] line
    and the closing []]. *)
Definition classify (in_array : bool) (ts : list token) : option item :=
  if in_array then
    match ts with
    | [] => Some Blank
    | [RBrack] => Some Close
    | _ => option_map Elements (elements ts)
    end
  else
    match ts with
    | [] => Some Blank
    | [LBrack; Bare h; RBrack] =>
        Some (Header false (Text.split_on "."%char h))
    | [LBrack; LBrack; Bare h; RBrack; RBrack] =>
        Some (Header true (Text.split_on "."%char h))
    | k :: Equals :: [LBrack] => option_map Open (key_of k)
    | k :: Equals :: vs =>
        match key_of k, value_of vs with
        | Some k', Some v => Some (Pair k' v)
        | _, _ => None
        end
    | _ => None
    end.

Definition add (t : table) (k : string) (v : value) : option table :=
  if Text.mem k (map fst (pairs t)) then None
  else Some {| header := header t; array_item := array_item t;
               pairs := pairs t ++ [(k, v)] |}.

Definition declared (h : list string) (d : document) : bool :=
  existsb (fun t => path_eqb (header t) h && negb (array_item t)) d.

(** [done]: the tables already closed; [cur]: the table being filled;
    [arr]: the key and the elements so far of an array left open. *)
Fixpoint read_lines (done : document) (cur : table)
    (arr : option (string * list value)) (ls : list string)
  : option document :=
  match ls with
  | [] =>
      match arr with
      | Some _ => None
      | None => Some (done ++ [cur])%list
      end
  | l :: r =>
      match lex Idle l with
      | None => None
      | Some ts =>
          match arr with
          | Some (k, vs) =>
              match classify true ts with
              | Some Blank => read_lines done cur arr r
              | Some (Elements ws) => read_lines done cur (Some (k, (vs ++ ws)%list)) r
              | Some Close =>
                  match add cur k (Arr vs) with
                  | Some cur' => read_lines done cur' None r
                  | None => None
                  end
              | _ => None
              end
          | None =>
              match classify false ts with
              | Some Blank => read_lines done cur None r
              | Some (Header a h) =>
                  if negb a && declared h (done ++ [cur])%list then None
                  else read_lines (done ++ [cur])%list
                         {| header := h; array_item := a; pairs := [] |}
                         None r
              | Some (Pair k v) =>
                  match add cur k v with
                  | Some cur' => read_lines done cur' None r
                  | None => None
                  end
              | Some (Open k) => read_lines done cur (Some (k, [])) r
              | _ => None
              end
          end
      end
  end.

Definition root : table :=
  {| header := []; array_item := false; pairs := [] |}.

(** The tables of a file in the file's order; the table of the keys
    written before the first header is left out when there are none. *)
Definition read (ls : list string) : option document :=
  match read_lines [] root None ls with
  | Some (t :: d) =>
      match pairs t with
      | [] => Some d
      | _ => Some (t :: d)
      end
  | _ => None
  end.

End TomlReader.

(** ** The packaging manifest *)

Module Pyproject.
Import Toml.

Definition tbl (h : list string) (kvs : list (string * value)) : table :=
  {| header := h; array_item := false; pairs := kvs |}.

Definition strs (l : list string) : value := Arr (map Str l).

Definition pyproject : document := [
  tbl ["tool"; "poetry"] [
    ("name", Str "fastapi-service-template");
    ("version", Str "0.1.0");
    ("description", Str EmptyString);
    ("authors", strs ["Duc-Minh Phan <alephvn@gmail.com>"]);
    ("license", Str "Apache License 2.0");
    ("readme", Str "README.md")];
  tbl ["tool"; "poetry"; "dependencies"] [
    ("python", Str "^3.10");
    ("fastapi", Str "^0.111.0");
    ("pydantic", Str "^2.7.1");
    ("pydantic-settings", Str "^2.2.1");
    ("python-dotenv", Str "^1.0.1");
    ("uvicorn", Str "^0.29.0")];
  tbl ["tool"; "poetry"; "group"; "dev"; "dependencies"] [
    ("asgiref", Str "^3.8.1");
    ("coverage", Str "^7.5.1");
    ("httpx", Str "^0.27.0");
    ("pytest", Str "^7.4.4");
    ("pytest-asyncio", Str "^0.21.2");
    ("pytest-cov", Str "^4.1.0");
    ("pytest-mock", Str "^3.14.0")];
  tbl ["build-system"] [
    ("requires", strs ["poetry-core"]);
    ("build-backend", Str "poetry.core.masonry.api")];
  tbl ["tool"; "ruff"] [
    ("line-length", Int 88);
    ("target-version", Str "py310");
    ("extend-exclude", strs ["migrations"])];
  tbl ["tool"; "ruff"; "lint"] [
    ("select", strs ["F"; "E"; "W"; "I"; "ASYNC"; "S"; "COM"; "C4"; "ISC";
                      "INP"; "T20"; "RSE"; "RET"; "SIM"; "C90"; "PERF"; "UP";
                      "RUF"]);
    ("ignore", strs ["S101"; "S105"; "S301"; "RUF012"])];
  tbl ["tool"; "ruff"; "lint"; "isort"] [
    ("lines-after-imports", Int 2);
    ("split-on-trailing-comma", Bool false);
    ("forced-separate", strs ["tests"])];
  tbl ["tool"; "ruff"; "lint"; "mccabe"] [
    ("max-complexity", Int 10)];
  tbl ["tool"; "ruff"; "lint"; "per-file-ignores"] [
    ("__init__.py", strs ["F401"]);
    ("tests/*", strs ["S106"; "S311"; "ASYNC101"])];
  tbl ["tool"; "mypy"] [
    ("ignore_missing_imports", Bool true);
    ("strict_optional", Bool true);
    ("follow_imports", Str "silent");
    ("check_untyped_defs", Bool true);
    ("plugins", strs ["pydantic.mypy"])];
  {| header := ["tool"; "mypy"; "overrides"]; array_item := true;
     pairs := [
       ("module", Str "tests.*");
       ("disable_error_code", Str "var-annotated")] |};
  tbl ["tool"; "coverage"; "run"] [
    ("source", strs ["main"]);
    ("concurrency", strs ["greenlet"; "thread"])];
  tbl ["tool"; "coverage"; "report"] [
    ("exclude_lines", strs [
      "pragma: no cover";
      "def __repr__";
      "raise AssertionError";
      "raise NotImplementedError";
      "if __name__ == .__main__.:";
      "if TYPE_CHECKING:";
      "@abstractmethod";
      "@overload"])]
].

(** [[tool.poetry.dependencies]]: requirement by name. *)
Definition dependencies : list (string * string) :=
  string_pairs ["tool"; "poetry"; "dependencies"] pyproject.

(** The interpreter is declared among the dependencies under the name
    [python]; the packages are the other entries. *)
Definition is_interpreter (name : string) : bool := String.eqb name "python".

Definition runtime_dependencies : list (string * string) :=
  filter (fun d => negb (is_interpreter (fst d))) dependencies.

Definition python_requirement : option string :=
  match get ["tool"; "poetry"; "dependencies"] "python" pyproject with
  | Some (Str s) => Some s
  | _ => None
  end.

Definition python : option Semver.requirement :=
  match python_requirement with
  | Some s => Semver.parse_caret s
  | None => None
  end.

(** [[tool.poetry.group.dev.dependencies]]. *)
Definition dev_dependencies : list (string * string) :=
  string_pairs ["tool"; "poetry"; "group"; "dev"; "dependencies"] pyproject.

(** [[tool.coverage.run]]. *)
Definition coverage_source : list string :=
  match get ["tool"; "coverage"; "run"] "source" pyproject with
  | Some v => strings_of v
  | None => []
  end.

Definition coverage_concurrency : list string :=
  match get ["tool"; "coverage"; "run"] "concurrency" pyproject with
  | Some v => strings_of v
  | None => []
  end.

End Pyproject.

(** ** What the named packages are *)

Module Packages.

(** The kinds of package the specification speaks of, and two more for the
    packages of the manifest that it does not mention. *)
Inductive kind : Type :=
| WebFramework
| DataValidation
| SettingsLoader
| DotenvLoader
| AsgiServer
| TestRunner
| CoverageTool
| HttpTestClient
| MockingPlugin
| AsyncTestPlugin
| CoveragePlugin
| AsgiUtilities.

(** The manifest names packages and says nothing of what they do; this is
    the kind of each distribution it names, after the distribution's own
    summary on the package index. *)
Definition kind_of (name : string) : option kind :=
  if String.eqb name "fastapi" then Some WebFramework
  else if String.eqb name "pydantic" then Some DataValidation
  else if String.eqb name "pydantic-settings" then Some SettingsLoader
  else if String.eqb name "python-dotenv" then Some DotenvLoader
  else if String.eqb name "uvicorn" then Some AsgiServer
  else if String.eqb name "pytest" then Some TestRunner
  else if String.eqb name "coverage" then Some CoverageTool
  else if String.eqb name "httpx" then Some HttpTestClient
  else if String.eqb name "pytest-mock" then Some MockingPlugin
  else if String.eqb name "pytest-asyncio" then Some AsyncTestPlugin
  else if String.eqb name "pytest-cov" then Some CoveragePlugin
  else if String.eqb name "asgiref" then Some AsgiUtilities
  else None.

Definition kind_eqb (a b : kind) : bool :=
  match a, b with
  | WebFramework, WebFramework
  | DataValidation, DataValidation
  | SettingsLoader, SettingsLoader
  | DotenvLoader, DotenvLoader
  | AsgiServer, AsgiServer
  | TestRunner, TestRunner
  | CoverageTool, CoverageTool
  | HttpTestClient, HttpTestClient
  | MockingPlugin, MockingPlugin
  | AsyncTestPlugin, AsyncTestPlugin
  | CoveragePlugin, CoveragePlugin
  | AsgiUtilities, AsgiUtilities => true
  | _, _ => false
  end.

Definition has_kind (k : kind) (name : string) : bool :=
  match kind_of name with
  | Some k' => kind_eqb k k'
  | None => false
  end.

(** The five kinds of development dependency that the specification
    lists. *)
Definition spec_dev_kinds : list kind :=
  [TestRunner; CoverageTool; HttpTestClient; MockingPlugin; AsyncTestPlugin].

Definition is_spec_dev_kind (name : string) : bool :=
  existsb (fun k => has_kind k name) spec_dev_kinds.

(** A requirement on a full semantic version: a caret and three numeric
    components. *)
Definition is_semver_caret (req : string) : bool :=
  match Semver.parse_caret req with
  | Some (Semver.Caret [_; _; _]) => true
  | _ => false
  end.

End Packages.

(** ** Relative paths *)

Module Path.

(** The directory and file names of a path, without empty and [.]
    components. *)
Definition components (p : string) : list string :=
  filter (fun c => Text.nonempty c && negb (String.eqb c "."))
         (Text.split_on "/"%char p).

Definition is_absolute (p : string) : bool := String.prefix "/" p.

Definition climbs (p : string) : bool := Text.mem ".." (components p).

Fixpoint starts_with (a b : list string) : bool :=
  match a, b with
  | [], _ => true
  | x :: a', y :: b' => String.eqb x y && starts_with a' b'
  | _ :: _, [] => false
  end.

(** [inside dir p]: both are relative to the same root, neither climbs out
    of it, and [p] is strictly below [dir]. *)
Definition inside (dir p : string) : bool :=
  negb (is_absolute dir) && negb (is_absolute p)
  && negb (climbs dir) && negb (climbs p)
  && starts_with (components dir) (components p)
  && (length (components dir) <? length (components p))%nat.

Definition dirname (p : string) : list string := removelast (components p).

End Path.

(** ** Markdown, as far as the README uses it *)

Module Markdown.

Definition is_fence (l : string) : bool := String.prefix "```" (Text.ltrim l).

(** What follows the three backquotes of an opening fence. *)
Definition fence_info (l : string) : string :=
  let t := Text.ltrim l in substring 3 (String.length t - 3) t.

Fixpoint hashes (s : string) : nat * string :=
  match s with
  | String "#"%char r => let (n, t) := hashes r in (S n, t)
  | _ => (0, s)
  end.

(** An ATX heading: one or more [#], a blank, the title. *)
Definition heading (l : string) : option (nat * string) :=
  match hashes l with
  | (S n, String " "%char t) => Some (S n, Text.ltrim t)
  | _ => None
  end.

Inductive kind : Type :=
| Heading (level : nat)
| Prose
| Fence
| Code (info : string).

(** A line of the document with the titles of the sections that enclose
    it, outermost first. *)
Record line : Type := {
  path : list string;
  what : kind;
  text : string
}.

(** Open sections, innermost first, each with its level. *)
Definition stack := list (nat * string).

(** A heading of level [n] closes the open sections of level [n] or
    deeper. *)
Fixpoint close (n : nat) (st : stack) : stack :=
  match st with
  | [] => []
  | (m, t) :: r => if (n <=? m)%nat then close n r else st
  end.

Definition titles (st : stack) : list string := rev (map snd st).

Fixpoint read_from (st : stack) (code : option string) (ls : list string)
  : list line :=
  match ls with
  | [] => []
  | l :: r =>
      match code with
      | Some info =>
          if is_fence l
          then {| path := titles st; what := Fence; text := l |}
               :: read_from st None r
          else {| path := titles st; what := Code info; text := l |}
               :: read_from st code r
      | None =>
          if is_fence l
          then {| path := titles st; what := Fence; text := l |}
               :: read_from st (Some (fence_info l)) r
          else match heading l with
               | Some (n, t) =>
                   let st' := (n, t) :: close n st in
                   {| path := titles st'; what := Heading n; text := t |}
                   :: read_from st' None r
               | None =>
                   {| path := titles st; what := Prose; text := l |}
                   :: read_from st None r
               end
      end
  end.

Definition read (ls : list string) : list line := read_from [] None ls.

Definition under (title : string) (l : line) : bool :=
  Text.mem title (path l).

(** The lines of the code blocks tagged [info] in section [title] and its
    subsections, without their indentation. *)
Definition code_under (info title : string) (d : list line) : list string :=
  flat_map (fun l =>
    match what l with
    | Code i => if String.eqb i info && under title l
                then [Text.ltrim (text l)] else []
    | _ => []
    end) d.

(** The list items ([- item]) directly in the text of section [title]. *)
Definition bullets_under (title : string) (d : list line) : list string :=
  flat_map (fun l =>
    match what l, text l with
    | Prose, String "-"%char (String " "%char t) =>
        if under title l then [t] else []
    | _, _ => []
    end) d.

Definition section_titles (d : list line) : list (nat * string) :=
  flat_map (fun l =>
    match what l with
    | Heading n => [(n, text l)]
    | _ => []
    end) d.

End Markdown.

(** ** The README *)

Module Readme.

Definition document : list Markdown.line := Markdown.read Source.readme_md.

(** The commands an operator is told to run: the shell lines of the
    section [Running], which contains the subsection [Run tests]. *)
Definition operator_commands : list string :=
  Markdown.code_under "shell" "Running" document.

(** The commands of the setup steps, the section [Installation]. *)
Definition setup_commands : list string :=
  Markdown.code_under "shell" "Installation" document.

Definition all_commands : list string :=
  Markdown.code_under "shell" "FastAPI Service Template" document.

(** A command that is [make] and one target, nothing else on the line. *)
Definition make_target (cmd : string) : option string :=
  match Text.words cmd with
  | [m; t] => if String.eqb m "make" && negb (String.prefix "-" t)
              then Some t else None
  | _ => None
  end.

(** The goal of any invocation of [make], whatever else is on the line. *)
Definition invokes_make (cmd : string) : bool :=
  match Text.words cmd with
  | m :: _ => String.eqb m "make"
  | [] => false
  end.

(** The directory given to [python -m venv]. *)
Fixpoint venv_argument (ws : list string) : option string :=
  match ws with
  | a :: r =>
      match r with
      | b :: d :: _ =>
          if String.eqb a "-m" && String.eqb b "venv" then Some d
          else venv_argument r
      | _ => None
      end
  | [] => None
  end.

Fixpoint first_some {A B : Type} (f : A -> option B) (l : list A) : option B :=
  match l with
  | [] => None
  | x :: r => match f x with Some y => Some y | None => first_some f r end
  end.

(** The virtual environment that the step [Set up virtual environment]
    creates. *)
Definition venv_dir : option string :=
  first_some (fun c => venv_argument (Text.words c))
    (Markdown.code_under "shell" "Set up virtual environment" document).

(** The script that the same step sources to activate it. *)
Definition activate_script : option string :=
  first_some (fun c => match Text.words c with
                       | [s; f] => if String.eqb s "source" then Some f
                                   else None
                       | _ => None
                       end)
    (Markdown.code_under "shell" "Set up virtual environment" document).

(** The interpreter version that the same step selects. *)
Definition pinned_python : option Semver.version :=
  first_some (fun c => match Text.words c with
                       | [p; l; v] =>
                           if String.eqb p "pyenv" && String.eqb l "local"
                           then Semver.parse v else None
                       | _ => None
                       end)
    (Markdown.code_under "shell" "Set up virtual environment" document).

Fixpoint drop_plus (s : string) : option string :=
  match s with
  | EmptyString => None
  | String "+"%char EmptyString => Some EmptyString
  | String a r => option_map (String a) (drop_plus r)
  end.

(** [Python v+] among the items of [Requirements]. *)
Definition required_python : option Semver.requirement :=
  first_some (fun b => match Text.words b with
                       | [p; v] =>
                           if String.eqb p "Python"
                           then match drop_plus v with
                                | Some n => option_map Semver.AtLeast
                                              (Semver.parse n)
                                | None => None
                                end
                           else None
                       | _ => None
                       end)
    (Markdown.bullets_under "Requirements" document).

(** Words by which a text would speak of flags, arguments or exit
    codes. *)
Definition invocation_vocabulary : list string :=
  ["flag"; "flags"; "option"; "options"; "argument"; "arguments";
   "exit"; "code"; "codes"; "status"].

Definition lower (a : ascii) : ascii :=
  let n := nat_of_ascii a in
  if ((65 <=? n) && (n <=? 90))%nat then ascii_of_nat (n + 32) else a.

Fixpoint lowercase (s : string) : string :=
  match s with
  | EmptyString => EmptyString
  | String a r => String (lower a) (lowercase r)
  end.

Definition speaks_of_invocation (l : string) : bool :=
  existsb (fun w => Text.mem w invocation_vocabulary)
          (Text.idents (lowercase l)).

End Readme.

(** ** The tool tables of the manifest and the clone step of the README *)

Module Tooling.
Import Toml Pyproject.

Definition strings_at (p : list string) (k : string) : list string :=
  match get p k pyproject with
  | Some v => strings_of v
  | None => []
  end.

Definition string_at (p : list string) (k : string) : option string :=
  match get p k pyproject with
  | Some (Str s) => Some s
  | _ => None
  end.

(** [[tool.ruff.lint]]: the rule selectors switched on and the rules
    switched off again. *)
Definition select : list string := strings_at ["tool"; "ruff"; "lint"] "select".

Definition ignore : list string := strings_at ["tool"; "ruff"; "lint"] "ignore".

(** [[tool.ruff.lint.per-file-ignores]]: file pattern, rules off there. *)
Definition per_file_ignores : list (string * list string) :=
  match find_table ["tool"; "ruff"; "lint"; "per-file-ignores"] pyproject with
  | Some t => map (fun kv => (fst kv, strings_of (snd kv))) (pairs t)
  | None => []
  end.

(** A selector stands for the rules whose code it is a prefix of. *)
Definition selects (code : string) : bool :=
  existsb (fun sel => String.prefix sel code) select.

Definition target_version : option string :=
  string_at ["tool"; "ruff"] "target-version".

(** [pyXY]: interpreter version X.Y, the major number being one digit. *)
Definition python_of_target (s : string) : option Semver.version :=
  match s with
  | String "p"%char (String "y"%char (String major minor)) =>
      match Text.parse_nat (String major EmptyString),
            Text.parse_nat minor with
      | Some a, Some b => Some [a; b]
      | _, _ => None
      end
  | _ => None
  end.

Definition forced_separate : list string :=
  strings_at ["tool"; "ruff"; "lint"; "isort"] "forced-separate".

(** [[tool.mypy]] and its [[[tool.mypy.overrides]]]. *)
Definition mypy_plugins : list string := strings_at ["tool"; "mypy"] "plugins".

Definition mypy_override_modules : list string :=
  flat_map (fun t =>
    if path_eqb (header t) ["tool"; "mypy"; "overrides"] && array_item t
    then match lookup "module" (pairs t) with
         | Some (Str m) => [m]
         | _ => []
         end
    else []) pyproject.

(** The first name of a dotted module path. *)
Definition top_level (module : string) : string :=
  hd EmptyString (Text.split_on "."%char module).




(** The plugins of the test runner among the development dependencies:
    the distributions named [pytest-...]. *)
Definition pytest_plugins : list string :=
  filter (String.prefix "pytest-") (map fst dev_dependencies).

Definition project_name : option string := string_at ["tool"; "poetry"] "name".

(** Every requirement of the two dependency tables. *)
Definition all_requirements : list (string * string) :=
  (dependencies ++ dev_dependencies)%list.

(** The table names of the tables that are not array items, dotted. *)
Definition table_names : list string :=
  map (fun t => String.concat "." (header t))
      (filter (fun t => negb (array_item t)) pyproject).

Definition keys_unique (t : table) : bool :=
  Text.nodupb (map fst (pairs t)).

(** [s] without its ending [suf]. *)
Fixpoint strip_suffix (suf s : string) : option string :=
  if String.eqb s suf then Some EmptyString
  else match s with
       | EmptyString => None
       | String a r => option_map (String a) (strip_suffix suf r)
       end.

(** The step [Clone the project] of the README. *)
Definition clone_commands : list string :=
  Markdown.code_under "shell" "Clone the project" Readme.document.

Definition clone_url : option string :=
  Readme.first_some (fun c => match Text.words c with
                              | [g; cl; u] =>
                                  if String.eqb g "git" && String.eqb cl "clone"
                                  then Some u else None
                              | _ => None
                              end) clone_commands.

(** The directory [git clone] creates: the last name of the address,
    without [.git]. *)
Definition clone_dir (url : string) : option string :=
  strip_suffix ".git" (last (Text.split_on "/"%char url) EmptyString).

Definition entered_dir : option string :=
  Readme.first_some (fun c => match Text.words c with
                              | [cd; d] =>
                                  if String.eqb cd "cd" then Some d else None
                              | _ => None
                              end) clone_commands.

(** The paths the descriptor hands to the process manager: the script, the
    interpreter and the entries of [PYTHONPATH]. *)
Definition descriptor_paths : list string :=
  flat_map (fun app =>
    (match Js.get "script" app with Some (Js.Str p) => [p] | _ => [] end)
    ++ (match Js.get "interpreter" app with Some (Js.Str p) => [p] | _ => [] end)
    ++ (match Js.get "env" app with
        | Some env =>
            match Js.get "PYTHONPATH" env with
            | Some (Js.Str p) => Text.split_on ":"%char p
            | _ => []
            end
        | None => []
        end))%list Ecosystem.apps.

Definition stays_in_project (p : string) : bool :=
  Text.nonempty p && negb (Path.is_absolute p) && negb (Path.climbs p).

Definition descriptor_script : list string :=
  flat_map (fun app =>
    match Js.get "script" app with Some (Js.Str p) => [p] | _ => [] end)
    Ecosystem.apps.

Definition descriptor_name : list string :=
  flat_map (fun app =>
    match Js.get "name" app with Some (Js.Str p) => [p] | _ => [] end)
    Ecosystem.apps.

End Tooling.

(** ** Facts about the text helpers *)

Module TextFacts.
Import Text.

Lemma mem_In (x : string) (l : list string) : mem x l = true <-> In x l.
Proof.
  unfold mem. rewrite existsb_exists. split.
  - intros [y [Hin Heq]]. apply String.eqb_eq in Heq. now subst.
  - intros Hin. exists x. split; [assumption | apply String.eqb_refl].
Qed.

Lemma nodupb_NoDup (l : list string) : nodupb l = true -> NoDup l.
Proof.
  induction l as [|x r IH]; simpl; intros H.
  - constructor.
  - apply andb_true_iff in H. destruct H as [Hx Hr].
    constructor; [| now apply IH].
    intros Hin. apply mem_In in Hin. rewrite Hin in Hx. discriminate.
Qed.

Lemma split_on_nonempty (c : ascii) (s : string) : split_on c s <> [].
Proof.
  destruct s as [|a r]; simpl; [discriminate |].
  destruct (Ascii.eqb a c); [discriminate |].
  destruct (split_on c r); discriminate.
Qed.

(** Putting [c] back between the pieces of [split_on c s] gives [s]. *)
Lemma split_on_join (c : ascii) (s : string) :
  String.concat (String c EmptyString) (split_on c s) = s.
Proof.
  induction s as [|a r IH]; [reflexivity |].
  pose proof (split_on_nonempty c r) as Hne.
  simpl. destruct (split_on c r) as [|p ps]; [congruence |].
  destruct (Ascii.eqb a c) eqn:Hac.
  - apply Ascii.eqb_eq in Hac. subst a.
    change (String c (String.concat (String c EmptyString) (p :: ps))
            = String c r).
    now rewrite IH.
  - destruct ps as [|p' ps'].
    + simpl in *. now subst.
    + change (String a (String.concat (String c EmptyString) (p :: p' :: ps'))
              = String a r).
      now rewrite IH.
Qed.

End TextFacts.

(** ** Facts about the readers of values *)

Module JsFacts.
Import Js.

Lemma dedup_In (ks seen : list string) (k : string) :
  In k (dedup seen ks) <-> In k ks /\ ~ In k seen.
Proof.
  revert seen. induction ks as [|k0 r IH]; intros seen; simpl.
  - tauto.
  - destruct (Text.mem k0 seen) eqn:Hm.
    + apply TextFacts.mem_In in Hm. rewrite IH.
      split; [tauto |]. intros [[-> | Hr] Hs]; tauto.
    + assert (Hn : ~ In k0 seen).
      { intros Hin. apply TextFacts.mem_In in Hin. congruence. }
      simpl. rewrite IH. simpl.
      destruct (string_dec k0 k) as [-> | Hne]; tauto.
Qed.

Lemma dedup_NoDup (ks seen : list string) : NoDup (dedup seen ks).
Proof.
  revert seen. induction ks as [|k0 r IH]; intros seen; simpl.
  - constructor.
  - destruct (Text.mem k0 seen); [apply IH |].
    constructor; [| apply IH].
    rewrite dedup_In. simpl. tauto.
Qed.

(** [Object.keys] never lists a key twice. *)
Lemma keys_NoDup (v : value) : NoDup (keys v).
Proof.
  destruct v; simpl; try constructor. apply dedup_NoDup.
Qed.

Lemma lookup_Some (k : string) (fs : list (string * value)) :
  (exists w, lookup k fs = Some w) <-> In k (map fst fs).
Proof.
  induction fs as [|[k' v] r IH]; simpl.
  - split; [intros [w Hw]; discriminate | tauto].
  - destruct (lookup k r) as [w|] eqn:Hl.
    + split; [intros _; right; apply IH; now exists w | intros _; now exists w].
    + destruct (String.eqb k k') eqn:Hk.
      * apply String.eqb_eq in Hk. subst k'.
        split; [intros _; now left | intros _; now exists v].
      * apply String.eqb_neq in Hk.
        split; [intros [w Hw]; discriminate |].
        intros [Heq | Hin]; [congruence |].
        apply IH in Hin. destruct Hin as [w Hw]. discriminate.
Qed.

(** The keys of an object are the names at which [get] finds a value. *)
Lemma keys_get (fs : list (string * value)) (k : string) :
  In k (keys (Obj fs)) <-> exists w, get k (Obj fs) = Some w.
Proof.
  simpl. rewrite dedup_In, lookup_Some. simpl. tauto.
Qed.

End JsFacts.

(** ** Facts about versions *)

Module SemverFacts.
Import Semver.

Lemma compare_refl (v : version) : compare v v = Eq.
Proof.
  induction v as [|x r IH]; simpl; [reflexivity |].
  now rewrite Nat.compare_refl.
Qed.

Lemma leb_refl (v : version) : leb v v = true.
Proof. unfold leb. now rewrite compare_refl. Qed.

Lemma compare_succ (n : nat) : Nat.compare n (S n) = Lt.
Proof. apply Nat.compare_lt_iff. lia. Qed.

(** The bound of a caret requirement is above its base. *)
Lemma caret_bound_above (v : version) :
  v <> [] -> compare v (caret_bound v) = Lt.
Proof.
  induction v as [|x r IH]; intros Hne; [congruence |].
  destruct x as [|n]; destruct r as [|y r'].
  - reflexivity.
  - change (caret_bound (0 :: y :: r')) with (0 :: caret_bound (y :: r')).
    cbn [compare]. rewrite Nat.compare_refl. apply IH. discriminate.
  - change (caret_bound [S n]) with [S (S n)].
    cbn [compare]. now rewrite compare_succ.
  - change (caret_bound (S n :: y :: r')) with [S (S n)].
    cbn [compare]. now rewrite compare_succ.
Qed.

(** A caret requirement admits the version it is written with. *)
Lemma caret_admits_base (v : version) :
  v <> [] -> allows (Caret v) v = true.
Proof.
  intros Hne. unfold allows, ltb.
  now rewrite leb_refl, (caret_bound_above v Hne).
Qed.

(** What [^v] admits, [v+] admits. *)
Lemma caret_within_at_least (b v : version) :
  allows (Caret b) v = true -> allows (AtLeast b) v = true.
Proof.
  unfold allows. intros H. apply andb_true_iff in H. exact (proj1 H).
Qed.

End SemverFacts.

(** ** The structured values are what the files' text reads as *)

Module SourceFacts.

Lemma module_exports_read :
  JsReader.read_module_exports Source.ecosystem_config_js
    = Some Ecosystem.module_exports.
Proof. vm_compute. reflexivity. Qed.

Lemma pyproject_read :
  TomlReader.read Source.pyproject_toml = Some Pyproject.pyproject.
Proof. vm_compute. reflexivity. Qed.

(** No line of the files' text, once its double quotes are back, holds an
    apostrophe: the transcription loses nothing. *)
Lemma no_apostrophe :
  Source.where_in_files (Text.contains "'") = [].
Proof. vm_compute. reflexivity. Qed.

Lemma line_counts :
  map (fun f => length (snd f)) Source.files = [13; 54; 106].
Proof. reflexivity. Qed.

(** The manifest's [readme] entry names the README. *)
Lemma readme_named :
  Toml.get ["tool"; "poetry"] "readme" Pyproject.pyproject
    = Some (Toml.Str "README.md")
  /\ Text.mem "README.md" (map fst Source.files) = true.
Proof. split; reflexivity. Qed.

End SourceFacts.

(** ** Statements about the descriptor *)

Module EcosystemFacts.
Import Js Ecosystem.

(** C1, as the specification words it, fails: the single app entry does not
    have five keys. *)
Lemma c1_not_five_keys :
  ~ (exists app, apps = [app] /\ length (keys app) = 5).
Proof.
  intros [app [Happs Hlen]].
  injection Happs as <-. vm_compute in Hlen. discriminate.
Qed.

(** C1 (amended): the descriptor contains exactly one app entry, and that
    entry has exactly seven keys, without repetition: [name], [script],
    [interpreter], [instances], [exec_mode], [watch] and [env], which are
    the seven keys the specification's external-interface section lists. *)
Theorem c1_one_app_seven_documented_keys :
  exists app,
    apps = [app]
    /\ length (keys app) = 7
    /\ NoDup (keys app)
    /\ keys app = spec_documented_keys
    /\ Forall (fun k => exists v, get k app = Some v) spec_documented_keys.
Proof.
  eexists. split; [reflexivity |].
  split; [reflexivity |].
  split; [apply JsFacts.keys_NoDup |].
  split; [reflexivity |].
  repeat constructor; eexists; reflexivity.
Qed.

(** C2: the descriptor declares exactly one managed process; its [name] is
    ["coda-helper"] and its [script] is ["run.py"]. *)
Theorem c2_one_process_name_script :
  length apps = 1
  /\ map (get "name") apps = [Some (Str "coda-helper")]
  /\ map (get "script") apps = [Some (Str "run.py")].
Proof. repeat split. Qed.

(** C5: in the single app entry [instances] is the number 1, [exec_mode] is
    the string ["fork"] and [watch] is the boolean [true]. *)
Theorem c5_single_fork_watch :
  exists app,
    apps = [app]
    /\ get "instances" app = Some (Num 1)
    /\ get "exec_mode" app = Some (Str "fork")
    /\ get "watch" app = Some (Bool true).
Proof. eexists. repeat split. Qed.

(** C6: the [env] mapping of the single app entry holds exactly one pair,
    [PYTHONPATH] with value ["."], and [PYTHONPATH] is a variable that
    affects Python's module resolution. *)
Theorem c6_env_only_pythonpath :
  exists app env,
    apps = [app]
    /\ get "env" app = Some env
    /\ entries env = [("PYTHONPATH", Str ".")]
    /\ length (keys env) = 1
    /\ Forall (fun k => affects_module_resolution k = true) (keys env).
Proof.
  do 2 eexists. split; [reflexivity |].
  split; [reflexivity |].
  split; [reflexivity |].
  split; [reflexivity |].
  repeat constructor.
Qed.

(** C7: the [interpreter] of the single app entry is a relative path that
    stays inside the directory [./venv], the virtual environment that the
    README's step [Set up virtual environment] creates with
    [python3 -m venv venv]; it is the [python] that sits next to the
    [activate] script which that step sources. *)
Theorem c7_interpreter_in_readme_venv :
  exists interp dir,
    map (get "interpreter") apps = [Some (Str interp)]
    /\ Readme.venv_dir = Some dir
    /\ interp = "./" ++ dir ++ "/bin/python"
    /\ Path.inside dir interp = true
    /\ Path.inside "./venv" interp = true
    /\ Path.components dir = Path.components "./venv"
    /\ option_map Path.dirname Readme.activate_script
        = Some (Path.dirname interp).
Proof. do 2 eexists. repeat split. Qed.

End EcosystemFacts.

(** ** Statements about the manifest's dependency tables *)

Module ManifestFacts.
Import Pyproject Packages.

(** C3: besides the interpreter requirement, the runtime dependency table
    names exactly five packages, each with a caret requirement on a
    semantic version: a web framework, a data-validation library, a
    settings loader, a dotenv loader and an ASGI server. *)
Theorem c3_runtime_dependency_set :
  map fst dependencies = "python" :: map fst runtime_dependencies
  /\ map fst runtime_dependencies =
       ["fastapi"; "pydantic"; "pydantic-settings"; "python-dotenv"; "uvicorn"]
  /\ length runtime_dependencies = 5
  /\ NoDup (map fst runtime_dependencies)
  /\ map kind_of (map fst runtime_dependencies) =
       [Some WebFramework; Some DataValidation; Some SettingsLoader;
        Some DotenvLoader; Some AsgiServer]
  /\ Forall (fun d => is_semver_caret (snd d) = true) runtime_dependencies.
Proof.
  split; [reflexivity |].
  split; [reflexivity |].
  split; [reflexivity |].
  split; [apply TextFacts.nodupb_NoDup; reflexivity |].
  split; [reflexivity |].
  repeat constructor.
Qed.

Lemma dev_dependency_names :
  map fst dev_dependencies =
    ["asgiref"; "coverage"; "httpx"; "pytest"; "pytest-asyncio";
     "pytest-cov"; "pytest-mock"].
Proof. reflexivity. Qed.

Lemma dev_dependency_names_NoDup : NoDup (map fst dev_dependencies).
Proof. apply TextFacts.nodupb_NoDup. reflexivity. Qed.

(** C4, as the specification words it, fails: no five packages make up the
    development dependency set, whatever kind they are of. *)
Lemma c4_not_five_dev_dependencies :
  ~ (exists five : list string,
       length five = 5
       /\ forall p, In p (map fst dev_dependencies) <-> In p five).
Proof.
  intros [five [Hlen Hsame]].
  assert (Hle : length (map fst dev_dependencies) <= length five).
  { apply NoDup_incl_length.
    - exact dev_dependency_names_NoDup.
    - intros p Hp. now apply Hsame. }
  rewrite Hlen, dev_dependency_names in Hle. simpl in Hle. lia.
Qed.

(** C4 (amended): the development dependency table names exactly seven
    packages: a test runner (pytest), a coverage tool (coverage), an HTTP
    test client (httpx), a mocking plugin (pytest-mock) and an async test
    plugin (pytest-asyncio), one package of each of these five kinds, and
    two more, the ASGI utility library asgiref and the test runner's
    coverage plugin pytest-cov. *)
Theorem c4_seven_dev_dependencies :
  map fst dev_dependencies =
    ["asgiref"; "coverage"; "httpx"; "pytest"; "pytest-asyncio";
     "pytest-cov"; "pytest-mock"]
  /\ length dev_dependencies = 7
  /\ NoDup (map fst dev_dependencies)
  /\ map (fun k => filter (has_kind k) (map fst dev_dependencies))
         spec_dev_kinds =
       [["pytest"]; ["coverage"]; ["httpx"]; ["pytest-mock"];
        ["pytest-asyncio"]]
  /\ filter (fun p => negb (is_spec_dev_kind p)) (map fst dev_dependencies) =
       ["asgiref"; "pytest-cov"]
  /\ map kind_of ["asgiref"; "pytest-cov"] =
       [Some AsgiUtilities; Some CoveragePlugin].
Proof.
  split; [reflexivity |].
  split; [reflexivity |].
  split; [exact dev_dependency_names_NoDup |].
  repeat split.
Qed.

(** C8: the manifest declares the interpreter requirement [^3.10]; the
    README requires Python 3.10 or newer; both start at version 3.10, and
    every interpreter version that the manifest's requirement admits is one
    that the README's requirement admits. *)
Theorem c8_python_caret_3_10 (v : Semver.version)
  (Hv : Semver.admits python v = true) :
  python_requirement = Some "^3.10"
  /\ python = Some (Semver.Caret [3; 10])
  /\ Readme.required_python = Some (Semver.AtLeast [3; 10])
  /\ option_map Semver.lower_bound python
     = option_map Semver.lower_bound Readme.required_python
  /\ Semver.admits Readme.required_python v = true.
Proof.
  assert (Hp : python = Some (Semver.Caret [3; 10])) by reflexivity.
  assert (Hr : Readme.required_python = Some (Semver.AtLeast [3; 10]))
    by reflexivity.
  split; [reflexivity |].
  split; [exact Hp |].
  split; [exact Hr |].
  split; [reflexivity |].
  rewrite Hp in Hv. rewrite Hr.
  exact (SemverFacts.caret_within_at_least [3; 10] v Hv).
Qed.

(** The interpreter version that the README's setup step selects, 3.10.9,
    is admitted by the manifest's requirement, hence by the README's. *)
Lemma c8_python_caret_3_10_witness :
  Readme.pinned_python = Some [3; 10; 9]
  /\ Semver.admits python [3; 10; 9] = true
  /\ Semver.admits Readme.required_python [3; 10; 9] = true.
Proof.
  split; [reflexivity |].
  split; [reflexivity |].
  apply (c8_python_caret_3_10 [3; 10; 9]). reflexivity.
Defined.

(** C10: the coverage configuration measures exactly one source root, the
    module name [main], and tracks exactly the concurrency models
    [greenlet] and [thread]; none of the supplied files is the module
    [main], and the name [main] is written nowhere in the supplied files but
    on the [source] line itself (line 93 of the manifest). *)
Theorem c10_coverage_run :
  coverage_source = ["main"]
  /\ coverage_concurrency = ["greenlet"; "thread"]
  /\ Toml.keys_of ["tool"; "coverage"; "run"] pyproject
     = ["source"; "concurrency"]
  /\ Forall (fun m => Source.supplies_module m = false) coverage_source
  /\ Forall (fun m => Source.occurrences m = [("pyproject.toml", 93)])
            coverage_source
  /\ nth_error Source.pyproject_toml 92 = Some (Source.q "source = ['main']").
Proof.
  split; [reflexivity |].
  split; [reflexivity |].
  split; [reflexivity |].
  split; [repeat constructor |].
  split; [repeat constructor |].
  reflexivity.
Qed.

(** The letters [main] occur on one more line of the supplied files, line
    102 of the manifest, inside the name [__main__] of a pattern of
    excluded lines; that is Python's name for the top-level script
    environment, not the module [main]. *)
Lemma main_within_dunder_main :
  Source.where_in_files (Text.contains "main")
    = [("pyproject.toml", 93); ("pyproject.toml", 102)]
  /\ option_map Text.idents (nth_error Source.pyproject_toml 101)
     = Some ["if"; "__name__"; "__main__"].
Proof. split; reflexivity. Qed.

End ManifestFacts.

(** ** Statements about the README *)

Module ReadmeFacts.

(** The sections of the README, with their levels. *)
Lemma readme_sections :
  Markdown.section_titles Readme.document =
    [(1, "FastAPI Service Template"); (2, "Requirements");
     (2, "Installation"); (3, "Clone the project");
     (3, "Set up virtual environment"); (3, "Install dependencies");
     (3, "Install `pre-commit` hooks"); (2, "Running"); (3, "Run tests")].
Proof. reflexivity. Qed.

(** C9: the README documents exactly two operator-facing commands, in its
    section [Running]: [make run] and [make test].  Each is [make] with one
    target and nothing else on the line; no makefile is among the supplied
    files; and no line of the README speaks of flags, arguments or exit
    codes.  (The README's only other invocation of [make],
    [make install-git-hooks], is a setup step of the section
    [Installation].) *)
Theorem c9_two_operator_commands :
  Readme.operator_commands = ["make run"; "make test"]
  /\ map Readme.make_target Readme.operator_commands
     = [Some "run"; Some "test"]
  /\ Source.supplies_makefile = false
  /\ existsb Readme.speaks_of_invocation Source.readme_md = false
  /\ filter Readme.invokes_make Readme.all_commands
     = "make install-git-hooks" :: Readme.operator_commands
  /\ filter Readme.invokes_make Readme.setup_commands
     = ["make install-git-hooks"].
Proof. repeat split. Qed.

End ReadmeFacts.

(** ** How the tables of the manifest, the README and the descriptor agree *)

Module ConsistencyFacts.
Import Pyproject Tooling.

(** X1: every rule that the linter configuration switches off, in [ignore]
    or for a file pattern in [per-file-ignores], is a rule that one of the
    selectors of [select] switches on, and none of them is a whole
    selector: no exception is idle and none undoes a selection. *)
Theorem ruff_ignored_rules_are_selected :
  Forall (fun code => selects code = true) ignore
  /\ Forall (fun pf => Forall (fun code => selects code = true) (snd pf))
            per_file_ignores
  /\ Forall (fun code => Text.mem code select = false)
            (ignore ++ flat_map snd per_file_ignores)%list
  /\ length (ignore ++ flat_map snd per_file_ignores)%list = 8.
Proof. repeat split; repeat constructor. Qed.

(** X2: the linter's target version [py310] is the interpreter version at
    which the manifest's requirement on [python] starts, which is also the
    one at which the README's requirement starts. *)
Theorem ruff_target_is_minimum_python :
  exists t v,
    target_version = Some t
    /\ python_of_target t = Some v
    /\ option_map Semver.lower_bound python = Some v
    /\ option_map Semver.lower_bound Readme.required_python = Some v
    /\ Semver.admits python v = true.
Proof. do 2 eexists. repeat split. Qed.

(** X3: every plugin has its host declared: the development dependencies
    named [pytest-...] come with [pytest] itself in the same table, and
    the type checker's plugin [pydantic.mypy] is a module of a declared
    runtime dependency. *)
Theorem plugins_have_their_host :
  pytest_plugins <> []
  /\ Text.mem "pytest" (map fst dev_dependencies) = true
  /\ mypy_plugins <> []
  /\ Forall (fun pl =>
       Text.mem (top_level pl) (map fst runtime_dependencies) = true)
            mypy_plugins.
Proof.
  split; [discriminate |].
  split; [reflexivity |].
  split; [discriminate |].
  repeat constructor.
Qed.


(** X5: each of the thirteen requirements of the two dependency tables is
    a caret requirement, and each admits the version it is written with,
    so none of them is empty on its own. *)
Theorem requirements_are_nonempty_carets :
  length all_requirements = 13
  /\ Forall (fun d => exists b,
       Semver.parse_caret (snd d) = Some (Semver.Caret b)
       /\ Semver.allows (Semver.Caret b) b = true) all_requirements.
Proof.
  split; [reflexivity |].
  repeat constructor;
    (eexists; split;
     [reflexivity | apply SemverFacts.caret_admits_base; discriminate]).
Qed.

(** X6: the directory that the README's clone step enters is the one that
    its [git clone] creates, and it carries the manifest's project name;
    the process name of the descriptor is a different name. *)
Theorem project_name_is_clone_directory :
  exists url d,
    clone_url = Some url
    /\ clone_dir url = Some d
    /\ entered_dir = Some d
    /\ project_name = Some d
    /\ descriptor_name <> []
    /\ Text.mem d descriptor_name = false.
Proof.
  do 2 eexists.
  split; [reflexivity |].
  split; [reflexivity |].
  split; [reflexivity |].
  split; [reflexivity |].
  split; [discriminate | reflexivity].
Qed.

(** X7: the manifest declares no table twice and no key twice within a
    table, and no package is both a runtime and a development
    dependency. *)
Theorem manifest_tables_and_keys_unique :
  NoDup table_names
  /\ Forall (fun t => NoDup (map fst (Toml.pairs t))) pyproject
  /\ Forall (fun name => Text.mem name (map fst dev_dependencies) = false)
            (map fst dependencies).
Proof.
  split; [apply TextFacts.nodupb_NoDup; reflexivity |].
  split; [| repeat constructor].
  assert (H : Forall (fun t => keys_unique t = true) pyproject)
    by (repeat constructor).
  revert H. apply Forall_impl. intros t Ht.
  now apply TextFacts.nodupb_NoDup.
Qed.

(** X8: the three tools name the same test package: the module pattern of
    the type checker's override and the directory pattern among the
    linter's per-file exceptions both lie in a package that the import
    sorter keeps separate. *)
Theorem tests_package_named_alike :
  mypy_override_modules <> []
  /\ Forall (fun m => Text.mem (top_level m) forced_separate = true)
            mypy_override_modules
  /\ Forall (fun pf =>
       match Path.components (fst pf) with
       | d :: _ :: _ => Text.mem d forced_separate
       | _ => true
       end = true) per_file_ignores
  /\ existsb (fun pf => (1 <? length (Path.components (fst pf)))%nat)
             per_file_ignores = true.
Proof.
  split; [discriminate |].
  repeat split; repeat constructor.
Qed.

(** X9: the script that the descriptor starts is not one of the supplied
    files, and its name is written nowhere but on the descriptor's own
    [script] line. *)
Theorem entry_point_not_supplied :
  descriptor_script <> []
  /\ Forall (fun p =>
       Text.mem p (map fst Source.files) = false
       /\ Source.where_in_files (Text.contains p)
          = [("ecosystem.config.js", 4)]) descriptor_script.
Proof.
  split; [discriminate |].
  repeat constructor.
Qed.

(** X10: every path that the descriptor hands over, the script, the
    interpreter and the entry of [PYTHONPATH], is relative and does not
    climb out of the directory the process manager is started in. *)
Theorem descriptor_paths_stay_in_project :
  length descriptor_paths = 3
  /\ Forall (fun p => stays_in_project p = true) descriptor_paths.
Proof. split; [reflexivity | repeat constructor]. Qed.

End ConsistencyFacts.
